(** * apps_size_apps: a shallow embedding of the two command-line entrypoints

    The repository holds two Python scripts, [click_main.py] and
    [argparse_main.py], which record application update sizes in a sqlite
    table named [updates].  This development embeds the sqlite3 calls the
    scripts make (connect, execute, commit, close), the [get_db_conn]
    context manager and the command functions themselves, and states the
    properties of the specification against them.

    Modelling decisions, all taken from the source:
    - the only table either script touches is [updates], so a database is
      the optional contents of that one table;
    - database files are keyed by the name given to [sqlite3.connect];
      [":memory:"] and the empty name open a private database that is
      gone when the connection closes;
    - connection objects live in a heap indexed by handles, because the
      scripts mutate them in place and may leave them open;
    - Python's default transaction handling: an INSERT opens a transaction
      that only [commit] makes durable, CREATE TABLE and DROP TABLE outside
      a transaction are durable at once, [close] drops pending changes;
    - at most one live connection is used at a time, so a connection works
      on the snapshot of the file it saw when it was opened;
    - every named file can be opened, and SELECT hands the rows out in
      insertion order. *)

From Stdlib Require Import String Ascii ZArith List Lia.
From stdpp Require Import gmap strings list fin_maps.

Open Scope string_scope.
Open Scope list_scope.

(** ** Values, rows and tables *)

(** What a cell of an untyped sqlite column can hold.  The scripts only ever
    bind text, and a column declared without a type keeps text as text;
    NULL and integers stand for what a table written by another tool may
    hold (REAL and BLOB cells are left out: like these two, they are not
    [str] once fetched). *)
Inductive SqlValue : Type :=
  | SqlNull
  | SqlInteger (z : Z)
  | SqlText (s : string).

Definition Row : Type := list SqlValue.

Record Table : Type := mkTable {
  columns : list string;
  rows : list Row
}.

(** [datetime.date]: year, month, day. *)
Record Date : Type := mkDate {
  year : nat;
  month : nat;
  day : nat
}.

Definition digit (n : nat) : ascii := ascii_of_nat (48 + n mod 10).

(** The [width] low decimal digits of [n], most significant first: what
    ["%0<width>d"] prints for a number of at most [width] digits. *)
Fixpoint zero_padded (width n : nat) : string :=
  match width with
  | O => ""
  | S w => zero_padded w (n / 10) +:+ String (digit n) ""
  end.

(** [date.isoformat()], which is also [str(date)] and what the default
    sqlite3 adapter binds for a [datetime.date] parameter: YYYY-MM-DD. *)
Definition isoformat (d : Date) : string :=
  zero_padded 4 (year d) +:+ "-" +:+ zero_padded 2 (month d) +:+ "-"
    +:+ zero_padded 2 (day d).

(** A Python value passed as a statement parameter. *)
Inductive PyParam : Type :=
  | PStr (s : string)
  | PDate (d : Date).

(** Parameter binding: [str] is bound as text, [datetime.date] goes through
    the default adapter. *)
Definition adapt (p : PyParam) : SqlValue :=
  match p with
  | PStr s => SqlText s
  | PDate d => SqlText (isoformat d)
  end.

(** ** Exceptions and results *)

Inductive SqlError : Type :=
  | NoSuchTable
  | TableAlreadyExists
  | ColumnCountMismatch.

Inductive Exn : Type :=
  | OperationalError (e : SqlError)
  | ProgrammingError
  | ValueError
  | TypeError.

Inductive Result (A : Type) : Type :=
  | Ok (a : A)
  | Raise (e : Exn).
Arguments Ok {A} a.
Arguments Raise {A} e.

(** ** The world: database files, connection objects, clock, stdout *)

Inductive Target : Type :=
  | InMemory
  | OnDisk (path : string).

Record Connection : Type := mkConnection {
  target : Target;
  db : option Table;
  in_transaction : bool;
  closed : bool
}.

Definition Handle : Type := nat.

(** A line written by [print]: either a plain string, or the f-string of
    [argparse_main.main], which renders the fetched tuple (or [None]) with
    Python's [repr]; the model keeps the tuple itself. *)
Inductive Printed : Type :=
  | PrintedText (s : string)
  | PrintedFetched (row : option Row).

Record World : Type := mkWorld {
  files : gmap string Table;
  conns : list Connection;
  today : Date;
  stdout : list Printed
}.

Definition set_files (f : gmap string Table) (w : World) : World :=
  mkWorld f (conns w) (today w) (stdout w).

Definition set_conns (cs : list Connection) (w : World) : World :=
  mkWorld (files w) cs (today w) (stdout w).

Definition set_today (d : Date) (w : World) : World :=
  mkWorld (files w) (conns w) d (stdout w).

Definition set_stdout (out : list Printed) (w : World) : World :=
  mkWorld (files w) (conns w) (today w) out.

(** Connections that were opened and not closed. *)
Definition live_conns (w : World) : list Connection :=
  filter (λ c, closed c = false) (conns w).

(** ** The state-and-exception monad of a Python function body *)

Definition Py (A : Type) : Type := World → World * Result A.

Definition ret {A} (a : A) : Py A := λ w, (w, Ok a).

Definition bind {A B} (m : Py A) (k : A → Py B) : Py B :=
  λ w, match m w with
       | (w1, Ok a) => k a w1
       | (w1, Raise e) => (w1, Raise e)
       end.

Definition lift {A} (r : Result A) : Py A := λ w, (w, r).

(** [try: body finally: cleanup]: the cleanup runs on both exits; an
    exception of the body is re-raised after it unless the cleanup itself
    raises. *)
Definition try_finally {A} (body : Py A) (cleanup : Py unit) : Py A :=
  λ w, match body w with
       | (w1, r) =>
           match cleanup w1 with
           | (w2, Ok _) => (w2, r)
           | (w2, Raise e) => (w2, Raise e)
           end
       end.

Declare Scope py_scope.
Delimit Scope py_scope with py.
Notation "x <- m ; k" := (bind m (λ x, k))
  (at level 100, m at next level, right associativity,
   format "'[v' x  <-  m ; '/' k ']'") : py_scope.
Notation "m ;; k" := (bind m (λ _, k))
  (at level 100, right associativity,
   format "'[v' m ;; '/' k ']'") : py_scope.
Notation "' ( a , b ) <- m ; k" := (bind m (λ p, let '(a, b) := p in k))
  (at level 100, m at next level, right associativity) : py_scope.
Open Scope py_scope.

(** ** sqlite3 *)

Inductive Statement : Type :=
  | CreateTable (cols : list string)
  | DropTable
  | InsertValues (params : list PyParam)
  | SelectAll.

(** The rows a cursor still has to hand out. *)
Definition Cursor : Type := list Row.

Definition fetchall (c : Cursor) : list Row := c.

Definition fetchone (c : Cursor) : option Row := head c.

(** Names for which [sqlite3.connect] opens a private database instead of
    a file: [":memory:"], and the empty name (a temporary database). *)
Definition is_private (db_name : string) : bool :=
  bool_decide (db_name = ":memory:") || bool_decide (db_name = "").

(** [sqlite3.connect(name)] resolves the name. *)
Definition connect_target (db_name : string) : Target :=
  if is_private db_name then InMemory else OnDisk db_name.

Definition snapshot (t : Target) (w : World) : option Table :=
  match t with
  | InMemory => None
  | OnDisk path => files w !! path
  end.

Definition connect (db_name : string) : Py Handle :=
  λ w, let t := connect_target db_name in
       (set_conns (conns w ++ [mkConnection t (snapshot t w) false false]) w,
        Ok (length (conns w))).

(** The effect of one statement on the [updates] table, and its result set.
    The statements of the scripts all name [updates]. *)
Definition apply_statement (s : Statement) (d : option Table)
  : Result (option Table * Cursor) :=
  match s, d with
  | CreateTable cols, None => Ok (Some (mkTable cols []), [])
  | CreateTable _, Some _ => Raise (OperationalError TableAlreadyExists)
  | DropTable, Some _ => Ok (None, [])
  | DropTable, None => Raise (OperationalError NoSuchTable)
  | InsertValues ps, Some t =>
      if decide (length (columns t) = length ps)
      then Ok (Some (mkTable (columns t) (rows t ++ [adapt <$> ps])), [])
      else Raise (OperationalError ColumnCountMismatch)
  | InsertValues _, None => Raise (OperationalError NoSuchTable)
  | SelectAll, Some t => Ok (d, rows t)
  | SelectAll, None => Raise (OperationalError NoSuchTable)
  end.

(** Statements before which the sqlite3 module opens a transaction. *)
Definition is_dml (s : Statement) : bool :=
  match s with
  | InsertValues _ => true
  | _ => false
  end.

Definition is_ddl (s : Statement) : bool :=
  match s with
  | CreateTable _ | DropTable => true
  | _ => false
  end.

(** Make the connection's view of the table the durable one. *)
Definition write_through (c : Connection) (w : World) : World :=
  match target c with
  | InMemory => w
  | OnDisk path =>
      match db c with
      | Some t => set_files (<[path := t]> (files w)) w
      | None => set_files (delete path (files w)) w
      end
  end.

Definition set_conn (h : Handle) (c : Connection) (w : World) : World :=
  set_conns (<[h := c]> (conns w)) w.

(** Run [f] on the open connection behind [h]; a closed connection (or a
    handle that [connect] never returned) raises [ProgrammingError]. *)
Definition on_open {A} (h : Handle) (f : Connection → Py A) : Py A :=
  λ w, match conns w !! h with
       | Some c => if closed c then (w, Raise ProgrammingError) else f c w
       | None => (w, Raise ProgrammingError)
       end.

(** [conn.execute(sql, params)], also [cursor.execute] on a cursor of
    [conn]. *)
Definition execute (h : Handle) (s : Statement) : Py Cursor :=
  on_open h (λ c w,
    match apply_statement s (db c) with
    | Raise e => (w, Raise e)
    | Ok (d', cur) =>
        let c' := mkConnection (target c) d'
                    (in_transaction c || is_dml s) false in
        let w' := set_conn h c' w in
        (if is_ddl s && negb (in_transaction c') then write_through c' w'
         else w',
         Ok cur)
    end).

(** [conn.commit()]. *)
Definition commit (h : Handle) : Py unit :=
  on_open h (λ c w,
    let c' := mkConnection (target c) (db c) false false in
    let w' := set_conn h c' w in
    (if in_transaction c then write_through c' w' else w', Ok ())).

(** [conn.close()]: pending changes are not written; closing twice is
    allowed. *)
Definition close (h : Handle) : Py unit :=
  λ w, match conns w !! h with
       | Some c =>
           (set_conn h (mkConnection (target c) (db c) false true) w, Ok ())
       | None => (w, Raise ProgrammingError)
       end.

(** [datetime.date.today()]. *)
Definition date_today : Py Date := λ w, (w, Ok (today w)).

(** [print(x)]. *)
Definition print (p : Printed) : Py unit :=
  λ w, (set_stdout (stdout w ++ [p]) w, Ok ()).

(** [sep.join(items)] on fetched values: every item must be a [str]. *)
Definition as_str (v : SqlValue) : Result string :=
  match v with
  | SqlText s => Ok s
  | _ => Raise TypeError
  end.

Fixpoint all_str (vs : list SqlValue) : Result (list string) :=
  match vs with
  | [] => Ok []
  | v :: vs' =>
      match as_str v with
      | Raise e => Raise e
      | Ok s =>
          match all_str vs' with
          | Raise e => Raise e
          | Ok ss => Ok (s :: ss)
          end
      end
  end.

Definition py_join (sep : string) (items : list SqlValue) : Result string :=
  match all_str items with
  | Ok ss => Ok (String.concat sep ss)
  | Raise e => Raise e
  end.

Fixpoint join_rows (rs : list Row) : Result (list string) :=
  match rs with
  | [] => Ok []
  | r :: rs' =>
      match py_join ", " r with
      | Raise e => Raise e
      | Ok s =>
          match join_rows rs' with
          | Raise e => Raise e
          | Ok ss => Ok (s :: ss)
          end
      end
  end.

Definition newline : string := String (ascii_of_nat 10) "".

(** The column list of both CREATE TABLE statements. *)
Definition updates_columns : list string := ["name"; "size"; "date"].

(** How a script ends as a process: with an exit status (0 when the
    entry point returns), or with an exception that reaches the top level
    uncaught (traceback).  Neither script has an [except] clause or a call
    of [sys.exit] around its database code. *)
Inductive Termination : Type :=
  | Exited (status : nat)
  | Uncaught (e : Exn).

Definition run_script (m : Py unit) (w : World) : World * Termination :=
  match m w with
  | (w', Ok _) => (w', Exited 0)
  | (w', Raise e) => (w', Uncaught e)
  end.

(** ** click_main.py *)

Module ClickMain.

(** [get_db_conn]: the context manager, applied to the body of the
    [with] block. *)
Definition get_db_conn {A} (db_name : string) (body : Handle → Py A)
  : Py A :=
  conn <- connect db_name;
  try_finally (body conn) (close conn).

Definition initialize_database (db_name : string) (force : bool)
  : Py unit :=
  conn <- connect db_name;
  (if force then execute conn DropTable;; ret () else ret ());;
  execute conn (CreateTable updates_columns);;
  close conn.

Definition update (db_name name size : string) : Py unit :=
  get_db_conn db_name (λ conn,
    d <- date_today;
    execute conn (InsertValues [PStr name; PStr size; PDate d]);;
    commit conn).

(** The [with] block of [summary]: what [rows] is bound to. *)
Definition summary_rows (db_name : string) : Py (list Row) :=
  get_db_conn db_name (λ conn,
    cursor <- execute conn SelectAll;
    ret (fetchall cursor)).

Definition summary (db_name : string) : Py unit :=
  rows <- summary_rows db_name;
  lines <- lift (join_rows rows);
  print (PrintedText (String.concat newline lines)).

(** The commands of the [cli] group, with their parsed arguments. *)
Inductive Command : Type :=
  | InitDb (db_name : string) (force : bool)
  | Update (db_name name size : string)
  | Summary (db_name : string).

Definition cli (c : Command) : Py unit :=
  match c with
  | InitDb db_name force => initialize_database db_name force
  | Update db_name name size => update db_name name size
  | Summary db_name => summary db_name
  end.

(** Successive [update] invocations, each on the day it is run; the
    session stops at the first invocation that fails. *)
Fixpoint update_session (db_name : string)
    (reqs : list (Date * string * string)) : Py unit :=
  match reqs with
  | [] => ret ()
  | (d, name, size) :: reqs' =>
      λ w, bind (update db_name name size)
             (λ _, update_session db_name reqs') (set_today d w)
  end.

End ClickMain.

(** The row an [update name size] run on day [d] binds. *)
Definition stored_row (d : Date) (name size : string) : Row :=
  [SqlText name; SqlText size; SqlText (isoformat d)].

Definition stored_rows (reqs : list (Date * string * string)) : list Row :=
  (λ '(d, name, size), stored_row d name size) <$> reqs.

(** The [size] column of fetched rows (second field of each tuple). *)
Definition size_column (rs : list Row) : list (option SqlValue) :=
  (λ r : Row, r !! 1) <$> rs.

(** ** argparse_main.py *)

Module ArgparseMain.

(** What [parse_command_line] returns: the positional arguments and the
    [--init-db] flag. *)
Record Namespace : Type := mkNamespace {
  update : list string;
  init_db : bool
}.

Definition initialize_database (db_name : string) : Py unit :=
  conn <- connect db_name;
  execute conn (CreateTable updates_columns);;
  close conn.

Definition get_db_conn {A} (db_name : string) (body : Handle → Py A)
  : Py A :=
  conn <- connect db_name;
  try_finally (body conn) (close conn).

(** [app_name, app_size = args.update]. *)
Definition unpack2 (l : list string) : Result (string * string) :=
  match l with
  | [a; b] => Ok (a, b)
  | _ => Raise ValueError
  end.

(** [main], from the namespace that [parse_command_line] returned. *)
Definition main (args : Namespace) : Py unit :=
  initialize_database ":memory:";;
  '(app_name, app_size) <- lift (unpack2 (update args));
  get_db_conn ":memory:" (λ conn,
    execute conn (CreateTable updates_columns);;
    d <- date_today;
    execute conn
      (InsertValues [PStr app_name; PStr app_size; PStr (isoformat d)]);;
    cursor <- execute conn SelectAll;
    print (PrintedFetched (fetchone cursor))).

End ArgparseMain.

(** The closed connection that a command on the file [path] leaves behind
    in the heap, with the last view [d] it had of the table. *)
Definition closed_conn (path : string) (d : option Table) : Connection :=
  mkConnection (OnDisk path) d false true.

(** The line that [summary] prints for the row of one [update] run on day
    [d]: the three fields joined by a comma and a space. *)
Definition printed_line (req : Date * string * string) : string :=
  let '(d, name, size) := req in
  name +:+ ", " +:+ size +:+ ", " +:+ isoformat d.

(** Fetched as a [str]? *)
Definition is_text (v : SqlValue) : bool :=
  match v with
  | SqlText _ => true
  | _ => false
  end.

(** The dates a [datetime.date] can hold: years MINYEAR (1) to MAXYEAR
    (9999, four digits), a month, a day of a month. *)
Definition date_in_range (d : Date) : Prop :=
  (1 ≤ year d < 10 ^ 4 ∧ 1 ≤ month d ≤ 12 ∧ 1 ≤ day d ≤ 31)%nat.

(** A table with one cell that is not text, as another tool may leave. *)
Definition null_cell_world : World :=
  mkWorld
    {[ "apps_sizes.db" :=
         mkTable updates_columns
           [stored_row (mkDate 2026 11 3) "A" "10";
            [SqlText "B"; SqlNull; SqlText "2026-11-04"]] ]}
    [] (mkDate 2026 11 4) [].

(** ** Sample worlds used by the examples *)

Definition nov4 : Date := mkDate 2026 11 4.

Definition sample_table : Table :=
  mkTable updates_columns [stored_row (mkDate 2026 11 3) "A" "10"].

(** No database file yet. *)
Definition blank_world : World := mkWorld ∅ [] nov4 [].

(** [apps_sizes.db] holds an [updates] table with one row. *)
Definition sample_world : World :=
  mkWorld {[ "apps_sizes.db" := sample_table ]} [] nov4 [].

(** [apps_sizes.db] holds two rows, of sizes 10 and 5. *)
Definition two_row_world : World :=
  mkWorld
    {[ "apps_sizes.db" :=
         mkTable updates_columns
           [stored_row (mkDate 2026 11 3) "A" "10";
            stored_row nov4 "B" "5"] ]}
    [] nov4 [].

(** * Properties *)

(** ** The connection heap *)

Lemma lookup_new_conn (cs : list Connection) (c : Connection) :
  (cs ++ [c]) !! length cs = Some c.
Proof. by apply list_lookup_middle. Qed.

Lemma insert_new_conn (cs : list Connection) (c c' : Connection) :
  <[length cs := c']> (cs ++ [c]) = cs ++ [c'].
Proof. induction cs as [|x cs IH]; simpl; [done | by rewrite IH]. Qed.

Lemma connect_target_file (db_name : string) :
  is_private db_name = false → connect_target db_name = OnDisk db_name.
Proof. unfold connect_target. by intros ->. Qed.

Lemma connect_target_private (db_name : string) :
  is_private db_name = true → connect_target db_name = InMemory.
Proof. unfold connect_target. by intros ->. Qed.

Example isoformat_nov4 : isoformat nov4 = "2026-11-04".
Proof. reflexivity. Qed.

Example isoformat_pads : isoformat (mkDate 987 3 9) = "0987-03-09".
Proof. reflexivity. Qed.

(** Unfold the Python layer down to list lookups in the connection heap,
    then run it on the connection that [connect] has just appended. *)
Ltac py_unfold :=
  unfold ClickMain.cli, ClickMain.summary, ClickMain.summary_rows,
    ClickMain.update, ClickMain.initialize_database, ClickMain.get_db_conn,
    ArgparseMain.main, ArgparseMain.initialize_database,
    ArgparseMain.get_db_conn, run_script, bind, ret, lift, try_finally,
    connect, execute, commit, close, on_open, date_today, print, fetchall,
    fetchone, write_through, set_conn, set_files, set_conns, set_stdout.

Ltac py_step :=
  first [ progress cbn
        | rewrite lookup_new_conn
        | rewrite insert_new_conn ].

Ltac py_run := py_unfold; repeat py_step.

(** ** click_main.py: what each command does to the world *)

Section ClickOnFile.

Variable w : World.
Variable path : string.
Hypothesis Hfile : is_private path = false.

Lemma update_spec (name size : string) (t : Table) :
  files w !! path = Some t →
  length (columns t) = 3 →
  let t' := mkTable (columns t)
              (rows t ++ [stored_row (today w) name size]) in
  ClickMain.update path name size w
  = (mkWorld (<[path := t']> (files w))
       (conns w ++ [closed_conn path (Some t')]) (today w) (stdout w),
     Ok ()).
Proof using Hfile.
  intros Hf Hc t'. py_unfold.
  rewrite (connect_target_file _ Hfile). cbn.
  rewrite lookup_new_conn. cbn. rewrite Hf. cbn.
  case_decide; [|contradiction].
  repeat py_step. done.
Qed.


Lemma summary_rows_spec (t : Table) :
  files w !! path = Some t →
  ClickMain.summary_rows path w
  = (set_conns (conns w ++ [closed_conn path (Some t)]) w, Ok (rows t)).
Proof using Hfile.
  intros Hf. py_unfold.
  rewrite (connect_target_file _ Hfile). cbn.
  rewrite lookup_new_conn. cbn. rewrite Hf.
  repeat py_step. done.
Qed.

Lemma summary_spec (t : Table) (lines : list string) :
  files w !! path = Some t →
  join_rows (rows t) = Ok lines →
  ClickMain.summary path w
  = (mkWorld (files w) (conns w ++ [closed_conn path (Some t)]) (today w)
       (stdout w ++ [PrintedText (String.concat newline lines)]),
     Ok ()).
Proof using Hfile.
  intros Hf Hj. unfold ClickMain.summary, bind.
  rewrite (summary_rows_spec t Hf). unfold lift. by rewrite Hj.
Qed.

Lemma initialize_existing_spec (t : Table) :
  files w !! path = Some t →
  ClickMain.initialize_database path false w
  = (set_conns (conns w ++ [mkConnection (OnDisk path) (Some t) false false])
       w,
     Raise (OperationalError TableAlreadyExists)).
Proof using Hfile.
  intros Hf. py_unfold.
  rewrite (connect_target_file _ Hfile). cbn.
  rewrite lookup_new_conn. cbn. rewrite Hf.
  repeat py_step. done.
Qed.

Lemma initialize_absent_spec :
  files w !! path = None →
  ClickMain.initialize_database path false w
  = (mkWorld (<[path := mkTable updates_columns []]> (files w))
       (conns w ++ [closed_conn path (Some (mkTable updates_columns []))])
       (today w) (stdout w),
     Ok ()).
Proof using Hfile.
  intros Hf. py_unfold.
  rewrite (connect_target_file _ Hfile). cbn.
  rewrite lookup_new_conn. cbn. rewrite Hf.
  repeat py_step. done.
Qed.

Lemma initialize_force_spec (t : Table) :
  files w !! path = Some t →
  ClickMain.initialize_database path true w
  = (mkWorld (<[path := mkTable updates_columns []]> (files w))
       (conns w ++ [closed_conn path (Some (mkTable updates_columns []))])
       (today w) (stdout w),
     Ok ()).
Proof using Hfile.
  intros Hf. py_unfold.
  rewrite (connect_target_file _ Hfile). cbn.
  rewrite lookup_new_conn. cbn. rewrite Hf.
  repeat py_step. by rewrite insert_delete_eq.
Qed.

Lemma initialize_force_absent_spec :
  files w !! path = None →
  ClickMain.initialize_database path true w
  = (set_conns (conns w ++ [mkConnection (OnDisk path) None false false]) w,
     Raise (OperationalError NoSuchTable)).
Proof using Hfile.
  intros Hf. py_unfold.
  rewrite (connect_target_file _ Hfile). cbn.
  rewrite lookup_new_conn. cbn. rewrite Hf.
  repeat py_step. done.
Qed.

End ClickOnFile.

Lemma update_session_spec (path : string)
    (reqs : list (Date * string * string)) :
  is_private path = false →
  ∀ (w : World) (t : Table),
    files w !! path = Some t →
    length (columns t) = 3 →
    ∃ w', ClickMain.update_session path reqs w = (w', Ok ())
          ∧ files w' !! path
            = Some (mkTable (columns t) (rows t ++ stored_rows reqs)).
Proof.
  intros Hfile. induction reqs as [|[[d name] size] reqs IH]; intros w t Hf Hc.
  - exists w. split; [done|]. cbn. rewrite app_nil_r. by destruct t.
  - cbn [ClickMain.update_session]. unfold bind.
    rewrite (update_spec (set_today d w) path Hfile name size t Hf Hc).
    cbn [today set_today files conns stdout].
    set (t1 := mkTable (columns t) (rows t ++ [stored_row d name size])).
    set (w1 := mkWorld _ _ _ _).
    destruct (IH w1 t1) as (w' & Hrun & Hfiles).
    + subst w1. cbn. apply lookup_insert_eq.
    + done.
    + exists w'. split; [done|]. rewrite Hfiles. subst t1. cbn.
      by rewrite <- app_assoc.
Qed.

(** ** Connections opened through [get_db_conn] are always closed *)

Ltac live_done :=
  unfold live_conns; cbn; rewrite filter_app; cbn; by rewrite app_nil_r.

Lemma update_releases_connection (w : World) (db_name name size : string) :
  live_conns (ClickMain.update db_name name size w).1 = live_conns w.
Proof.
  py_unfold. unfold connect_target, snapshot.
  destruct (is_private db_name); cbn; rewrite lookup_new_conn; cbn.
  - repeat py_step. live_done.
  - destruct (files w !! db_name) as [t|]; cbn.
    + case_decide; repeat py_step; live_done.
    + repeat py_step. live_done.
Qed.

Lemma summary_releases_connection (w : World) (db_name : string) :
  live_conns (ClickMain.summary db_name w).1 = live_conns w.
Proof.
  py_unfold. unfold connect_target, snapshot.
  destruct (is_private db_name); cbn; rewrite lookup_new_conn; cbn.
  - repeat py_step. live_done.
  - destruct (files w !! db_name) as [t|]; repeat py_step.
    + destruct (join_rows (rows t)); cbn; live_done.
    + live_done.
Qed.

(** ** argparse_main.py *)

Lemma argparse_initialize_memory (w : World) :
  ArgparseMain.initialize_database ":memory:" w
  = (set_conns
       (conns w
        ++ [mkConnection InMemory (Some (mkTable updates_columns [])) false
              true]) w,
     Ok ()).
Proof.
  py_unfold. rewrite (connect_target_private ":memory:") by reflexivity.
  repeat py_step. done.
Qed.

Lemma argparse_initialize_existing (w : World) (path : string) (t : Table) :
  is_private path = false →
  files w !! path = Some t →
  ArgparseMain.initialize_database path w
  = (set_conns (conns w ++ [mkConnection (OnDisk path) (Some t) false false])
       w,
     Raise (OperationalError TableAlreadyExists)).
Proof.
  intros Hfile Hf. py_unfold.
  rewrite (connect_target_file _ Hfile). cbn.
  rewrite lookup_new_conn. cbn. rewrite Hf.
  repeat py_step. done.
Qed.

Lemma main_two_arguments_spec (w : World) (name size : string) (flag : bool) :
  ArgparseMain.main (ArgparseMain.mkNamespace [name; size] flag) w
  = (mkWorld (files w)
       (conns w
        ++ [mkConnection InMemory (Some (mkTable updates_columns [])) false
              true;
            mkConnection InMemory
              (Some (mkTable updates_columns
                       [stored_row (today w) name size]))
              false true])
       (today w)
       (stdout w ++ [PrintedFetched (Some (stored_row (today w) name size))]),
     Ok ()).
Proof.
  unfold ArgparseMain.main, bind.
  rewrite argparse_initialize_memory. cbn [lift ArgparseMain.unpack2
    ArgparseMain.update].
  py_unfold. rewrite (connect_target_private ":memory:") by reflexivity.
  repeat py_step.
  case_decide; [|done].
  repeat py_step.
  by rewrite <- app_assoc.
Qed.


(** * The claims *)

(** C1.  The specification has [summary] print a report of windowed totals,
    the most updated app, mean and median.  Run on a table holding the rows
    (A, 10, 2026-11-03) and (B, 5, 2026-11-04), [summary] returns normally
    and its whole output is one [print] of the two rows, fields joined by
    a comma and rows by a newline: no total (15), no mean (7.5), no app
    name on its own. *)
Theorem summary_prints_raw_rows :
  ClickMain.summary "apps_sizes.db" two_row_world
  = (mkWorld (files two_row_world)
       [closed_conn "apps_sizes.db" (files two_row_world !! "apps_sizes.db")]
       nov4
       [PrintedText ("A, 10, 2026-11-03" +:+ newline +:+ "B, 5, 2026-11-04")],
     Ok ()).
Proof.
  rewrite (summary_spec two_row_world "apps_sizes.db" eq_refl
             (mkTable updates_columns
                [stored_row (mkDate 2026 11 3) "A" "10";
                 stored_row nov4 "B" "5"])
             ["A, 10, 2026-11-03"; "B, 5, 2026-11-04"]);
    reflexivity.
Qed.

(** C2.  The specification has Insert reject an empty name and a size that
    is not a positive number.  [update] run with the empty name and any
    size string whatever ("abc", "-5" and "0" among them) returns normally
    and appends the row as given. *)
Theorem update_stores_invalid_requests (size : string) :
  ClickMain.update "apps_sizes.db" "" size sample_world
  = (mkWorld
       (<["apps_sizes.db" :=
            mkTable updates_columns
              (rows sample_table ++ [stored_row nov4 "" size])]>
          (files sample_world))
       [closed_conn "apps_sizes.db"
          (Some (mkTable updates_columns
                   (rows sample_table ++ [stored_row nov4 "" size])))]
       nov4 [],
     Ok ()).
Proof.
  by rewrite (update_spec sample_world "apps_sizes.db" eq_refl "" size
                sample_table).
Qed.

(** C3, as stated, fails when there is no table: [init-db --force] on a
    name with no [updates] table does not succeed and leaves no table. *)
Lemma initialize_force_fails_without_table :
  ¬ ∃ w', ClickMain.initialize_database "apps_sizes.db" true blank_world
          = (w', Ok ())
          ∧ files w' !! "apps_sizes.db" = Some (mkTable updates_columns []).
Proof.
  intros (w' & Hrun & _).
  rewrite (initialize_force_absent_spec blank_world "apps_sizes.db") in Hrun;
    [discriminate | reflexivity | reflexivity].
Qed.

(** C3, amended.  Whenever the [updates] table exists in the named file,
    whatever its columns and rows, [initialize_database] with [force] set
    succeeds, leaves in that file an empty table with the columns
    (name, size, date), leaves every other file as it was, and leaves no
    connection open. *)
Theorem initialize_force_resets_existing_table
    (w : World) (path : string) (t : Table) :
  is_private path = false →
  files w !! path = Some t →
  ∃ w', ClickMain.initialize_database path true w = (w', Ok ())
        ∧ files w' = <[path := mkTable updates_columns []]> (files w)
        ∧ files w' !! path = Some (mkTable ["name"; "size"; "date"] [])
        ∧ live_conns w' = live_conns w.
Proof.
  intros Hfile Hf. eexists. split.
  - exact (initialize_force_spec w path Hfile t Hf).
  - cbn [files]. split; [done|]. split; [apply lookup_insert_eq|].
    unfold closed_conn, live_conns. cbn [conns].
    rewrite filter_app. cbn. by rewrite app_nil_r.
Qed.

Lemma initialize_force_resets_existing_table_witness :
  ∃ w', ClickMain.initialize_database "apps_sizes.db" true sample_world
        = (w', Ok ())
        ∧ files w' !! "apps_sizes.db"
          = Some (mkTable ["name"; "size"; "date"] []).
Proof.
  destruct (initialize_force_resets_existing_table sample_world
              "apps_sizes.db" sample_table eq_refl eq_refl)
    as (w' & Hrun & _ & Hlook & _).
  exists w'. split; [exact Hrun | exact Hlook].
Defined.

(** C4, as stated, fails: [init-db] without [--force] on an existing table
    does not end with a reported error status; the sqlite error reaches the
    top level uncaught. *)
Lemma initialize_existing_not_reported :
  (run_script (ClickMain.cli (ClickMain.InitDb "apps_sizes.db" false))
     sample_world).2
  = Uncaught (OperationalError TableAlreadyExists)
  ∧ ¬ ∃ status,
        (run_script (ClickMain.cli (ClickMain.InitDb "apps_sizes.db" false))
           sample_world).2
        = Exited status.
Proof.
  unfold run_script. cbn [ClickMain.cli].
  rewrite (initialize_existing_spec sample_world "apps_sizes.db" eq_refl
             sample_table eq_refl).
  split; [reflexivity|]. intros [status H]. discriminate H.
Qed.

(** C4, amended.  Whenever the [updates] table already exists,
    [initialize_database] without force (the click command, and the
    function of the argparse script) raises sqlite's "table already exists"
    error, which no handler catches: the script ends with that exception
    uncaught.  Every file, and so the existing table and its rows, is
    left unchanged. *)
Theorem initialize_existing_raises_uncaught
    (w : World) (path : string) (t : Table) :
  is_private path = false →
  files w !! path = Some t →
  (∃ w', run_script (ClickMain.cli (ClickMain.InitDb path false)) w
         = (w', Uncaught (OperationalError TableAlreadyExists))
         ∧ files w' = files w ∧ files w' !! path = Some t)
  ∧ (∃ w', run_script (ArgparseMain.initialize_database path) w
           = (w', Uncaught (OperationalError TableAlreadyExists))
           ∧ files w' = files w ∧ files w' !! path = Some t).
Proof.
  intros Hfile Hf. unfold run_script. cbn [ClickMain.cli].
  rewrite (initialize_existing_spec w path Hfile t Hf).
  rewrite (argparse_initialize_existing w path t Hfile Hf).
  split; eexists; (split; [reflexivity|]); cbn; by split.
Qed.

Lemma initialize_existing_raises_uncaught_witness :
  ∃ w', run_script (ClickMain.cli (ClickMain.InitDb "apps_sizes.db" false))
          sample_world
        = (w', Uncaught (OperationalError TableAlreadyExists))
        ∧ files w' !! "apps_sizes.db" = Some sample_table.
Proof.
  destruct (initialize_existing_raises_uncaught sample_world "apps_sizes.db"
              sample_table eq_refl eq_refl)
    as [(w' & Hrun & _ & Hlook) _].
  exists w'. split; [exact Hrun | exact Hlook].
Defined.

(** C5.  For every name and size, every date the clock shows and every
    prior contents of a three-column [updates] table, [update] succeeds
    and the rows [summary] then fetches are the prior rows, unchanged and
    in their order, followed by the one new row (name, size, date in ISO
    form) with the strings exactly as given. *)
Theorem update_then_fetch_appends
    (w : World) (path name size : string) (t : Table) :
  is_private path = false →
  files w !! path = Some t →
  length (columns t) = 3 →
  ∃ w1 w2,
    ClickMain.update path name size w = (w1, Ok ())
    ∧ ClickMain.summary_rows path w1
      = (w2, Ok (rows t
                 ++ [[SqlText name; SqlText size;
                      SqlText (isoformat (today w))]])).
Proof.
  intros Hfile Hf Hc. eexists. eexists. split.
  - by apply update_spec.
  - rewrite (summary_rows_spec _ path Hfile
               (mkTable (columns t)
                  (rows t ++ [stored_row (today w) name size])));
      [reflexivity|].
    cbn [files]. apply lookup_insert_eq.
Qed.

Lemma update_then_fetch_appends_witness :
  ∃ w1 w2,
    ClickMain.update "apps_sizes.db" "B" "5" sample_world = (w1, Ok ())
    ∧ ClickMain.summary_rows "apps_sizes.db" w1
      = (w2, Ok [[SqlText "A"; SqlText "10"; SqlText "2026-11-03"];
                 [SqlText "B"; SqlText "5"; SqlText "2026-11-04"]]).
Proof.
  exact (update_then_fetch_appends sample_world "apps_sizes.db" "B" "5"
           sample_table eq_refl eq_refl eq_refl).
Defined.

(** C6.  [get_db_conn] closes its connection in a [finally] block, and so
    [update] and [summary] leave no connection open on any exit
    ([update_releases_connection], [summary_releases_connection]).
    [initialize_database] calls [close] only after its statements: run
    without force on an existing table, it raises and the connection it
    opened stays open. *)
Theorem initialize_database_error_leaves_connection_open :
  live_conns sample_world = []
  ∧ (ClickMain.initialize_database "apps_sizes.db" false sample_world).2
    = Raise (OperationalError TableAlreadyExists)
  ∧ live_conns
      (ClickMain.initialize_database "apps_sizes.db" false sample_world).1
    = [mkConnection (OnDisk "apps_sizes.db") (Some sample_table) false false]
  ∧ live_conns
      (ArgparseMain.initialize_database "apps_sizes.db" sample_world).1
    = [mkConnection (OnDisk "apps_sizes.db") (Some sample_table) false false].
Proof.
  rewrite (initialize_existing_spec sample_world "apps_sizes.db" eq_refl
             sample_table eq_refl).
  rewrite (argparse_initialize_existing sample_world "apps_sizes.db"
             sample_table eq_refl eq_refl).
  repeat split.
Qed.

(** C7.  The same request, name "B" and size "5", on the same store, whose
    [apps_sizes.db] holds one row: the click [update] command appends the
    row to the file and prints nothing; the argparse [main] leaves the file
    as it was and prints the tuple it fetched from its in-memory
    database. *)
Theorem entrypoints_differ_on_update :
  let click := (ClickMain.update "apps_sizes.db" "B" "5" sample_world).1 in
  let argparse :=
    (ArgparseMain.main (ArgparseMain.mkNamespace ["B"; "5"] false)
       sample_world).1 in
  files click !! "apps_sizes.db"
  = Some (mkTable updates_columns
            [stored_row (mkDate 2026 11 3) "A" "10"; stored_row nov4 "B" "5"])
  ∧ files argparse !! "apps_sizes.db" = Some sample_table
  ∧ files argparse = files sample_world
  ∧ files click ≠ files argparse
  ∧ stdout click = []
  ∧ stdout argparse = [PrintedFetched (Some (stored_row nov4 "B" "5"))].
Proof.
  cbv zeta.
  rewrite (update_spec sample_world "apps_sizes.db" eq_refl "B" "5"
             sample_table eq_refl eq_refl).
  rewrite main_two_arguments_spec. cbn [fst files stdout today].
  repeat split.
  intros Heq.
  apply (f_equal (λ m : gmap string Table, m !! "apps_sizes.db")) in Heq.
  cbv beta in Heq. rewrite lookup_insert_eq in Heq. discriminate Heq.
Qed.




(** C10.  From [init-db] on, after any sequence of [update] invocations
    (any names, any size strings, any days), the rows that [summary]
    fetches are exactly the rows bound, in order, and the size column
    holds, for each invocation, the very string given as size, as text. *)
Theorem size_column_is_command_line_text
    (w : World) (path : string) (reqs : list (Date * string * string)) :
  is_private path = false →
  files w !! path = None →
  ∃ w1 w2 w3,
    ClickMain.initialize_database path false w = (w1, Ok ())
    ∧ ClickMain.update_session path reqs w1 = (w2, Ok ())
    ∧ ClickMain.summary_rows path w2 = (w3, Ok (stored_rows reqs))
    ∧ size_column (stored_rows reqs)
      = (λ '(_, _, size), Some (SqlText size)) <$> reqs.
Proof.
  intros Hfile Hf.
  eexists. 
  destruct (update_session_spec path reqs Hfile
              (mkWorld (<[path := mkTable updates_columns []]> (files w))
                 (conns w
                  ++ [closed_conn path (Some (mkTable updates_columns []))])
                 (today w) (stdout w))
              (mkTable updates_columns []))
    as (w2 & Hrun & Hfiles).
  { cbn [files]. apply lookup_insert_eq. }
  { reflexivity. }
  exists w2. eexists. split; [exact (initialize_absent_spec w path Hfile Hf)|].
  split; [exact Hrun|]. split.
  - rewrite (summary_rows_spec w2 path Hfile _ Hfiles). reflexivity.
  - unfold size_column, stored_rows. rewrite <- list_fmap_compose.
    apply list_fmap_ext. by intros _ [[d name] size] _.
Qed.

Lemma size_column_is_command_line_text_witness :
  ∃ w1 w2 w3,
    ClickMain.initialize_database "apps_sizes.db" false blank_world
    = (w1, Ok ())
    ∧ ClickMain.update_session "apps_sizes.db"
        [(nov4, "A", "abc"); (nov4, "B", "-5")] w1 = (w2, Ok ())
    ∧ ClickMain.summary_rows "apps_sizes.db" w2
      = (w3, Ok [[SqlText "A"; SqlText "abc"; SqlText "2026-11-04"];
                 [SqlText "B"; SqlText "-5"; SqlText "2026-11-04"]]).
Proof.
  destruct (size_column_is_command_line_text blank_world "apps_sizes.db"
              [(nov4, "A", "abc"); (nov4, "B", "-5")] eq_refl eq_refl)
    as (w1 & w2 & w3 & H1 & H2 & H3 & _).
  exists w1, w2, w3. split; [exact H1|]. split; [exact H2 | exact H3].
Defined.

(** * Further properties of the two scripts *)

(** ** Every case of the click commands *)



Lemma update_private_spec (w : World) (db_name name size : string) :
  is_private db_name = true →
  ClickMain.update db_name name size w
  = (set_conns (conns w ++ [mkConnection InMemory None false true]) w,
     Raise (OperationalError NoSuchTable)).
Proof.
  intros Hp. py_unfold. rewrite (connect_target_private _ Hp).
  repeat py_step. done.
Qed.




Lemma initialize_private_spec (w : World) (db_name : string) :
  is_private db_name = true →
  ClickMain.initialize_database db_name false w
  = (set_conns
       (conns w
        ++ [mkConnection InMemory (Some (mkTable updates_columns [])) false
              true]) w,
     Ok ()).
Proof.
  intros Hp. py_unfold. rewrite (connect_target_private _ Hp).
  repeat py_step. done.
Qed.


(** ** Joining fetched rows *)

Lemma all_str_raises (vs : list SqlValue) (e : Exn) :
  all_str vs = Raise e → e = TypeError.
Proof.
  induction vs as [|v vs IH]; cbn; [discriminate|].
  destruct v; cbn; try (intros [= <-]; done).
  destruct (all_str vs); [discriminate|]. intros [= <-]. by apply IH.
Qed.

Lemma join_rows_raises (rs : list Row) (e : Exn) :
  join_rows rs = Raise e → e = TypeError.
Proof.
  induction rs as [|r rs IH]; cbn; [discriminate|].
  unfold py_join. destruct (all_str r) as [ss|e'] eqn:Hr.
  - destruct (join_rows rs); [discriminate|]. intros [= <-]. by apply IH.
  - intros [= <-]. by apply (all_str_raises r).
Qed.

Lemma all_str_ok_iff (vs : list SqlValue) :
  (∃ ss, all_str vs = Ok ss) ↔ forallb is_text vs = true.
Proof.
  induction vs as [|v vs IH]; cbn.
  - split; [done | by exists []].
  - destruct v; cbn; try (split; [by intros [? ?] | done]).
    rewrite <- IH. destruct (all_str vs) as [ss|e].
    + split; intros _; by eexists.
    + split; by intros [? ?].
Qed.

Lemma join_rows_ok_iff (rs : list Row) :
  (∃ lines, join_rows rs = Ok lines) ↔ forallb (forallb is_text) rs = true.
Proof.
  induction rs as [|r rs IH]; cbn.
  - split; [done | by exists []].
  - rewrite andb_true_iff, <- IH, <- all_str_ok_iff. unfold py_join.
    destruct (all_str r) as [ss|e].
    + destruct (join_rows rs) as [lines|e'].
      * split; [intros _; split; by eexists | intros _; by eexists].
      * split; [by intros [? ?] | by intros [_ [? ?]]].
    + split; [by intros [? ?] | by intros [[? ?] _]].
Qed.

Lemma join_stored_rows (reqs : list (Date * string * string)) :
  join_rows (stored_rows reqs) = Ok (printed_line <$> reqs).
Proof.
  induction reqs as [|[[d name] size] reqs IH]; [done|].
  cbn [stored_rows fmap list_fmap join_rows] in *.
  unfold stored_rows in IH. rewrite IH. reflexivity.
Qed.



(** ** click_main.py: [update] *)


(** X2.  A private database name ([":memory:"] or the empty name) never
    carries a table from one command to the next: on every world [init-db]
    on such a name succeeds and leaves the files as they were, and an
    [update] on the same name right after it still fails with "no such
    table". *)
Theorem private_database_is_never_persisted
    (w : World) (db_name name size : string) :
  is_private db_name = true →
  ∃ w1 w2,
    ClickMain.initialize_database db_name false w = (w1, Ok ())
    ∧ files w1 = files w
    ∧ ClickMain.update db_name name size w1
      = (w2, Raise (OperationalError NoSuchTable))
    ∧ files w2 = files w.
Proof.
  intros Hp. eexists. eexists.
  split; [by apply initialize_private_spec|]. split; [done|].
  split; [by apply update_private_spec | done].
Qed.

Lemma private_database_is_never_persisted_witness :
  ∃ w1 w2,
    ClickMain.initialize_database ":memory:" false sample_world = (w1, Ok ())
    ∧ ClickMain.update ":memory:" "A" "10" w1
      = (w2, Raise (OperationalError NoSuchTable)).
Proof.
  destruct (private_database_is_never_persisted sample_world ":memory:"
              "A" "10" eq_refl)
    as (w1 & w2 & H1 & _ & H2 & _).
  exists w1, w2. split; [exact H1 | exact H2].
Defined.

(** ** click_main.py: [summary] *)


(** X4.  On a file without the table, [init-db] followed by [summary]
    succeeds and prints exactly one empty string: an empty table is not an
    error. *)
Theorem summary_of_new_table_prints_empty_line (w : World) (path : string) :
  is_private path = false →
  files w !! path = None →
  ∃ w1 w2,
    ClickMain.initialize_database path false w = (w1, Ok ())
    ∧ ClickMain.summary path w1 = (w2, Ok ())
    ∧ stdout w2 = stdout w ++ [PrintedText ""]
    ∧ files w2 = <[path := mkTable updates_columns []]> (files w).
Proof.
  intros Hp Hf. eexists. eexists.
  split; [exact (initialize_absent_spec w path Hp Hf)|].
  split.
  - apply (summary_spec _ path Hp (mkTable updates_columns []) []);
      [cbn [files]; apply lookup_insert_eq | done].
  - done.
Qed.

Lemma summary_of_new_table_prints_empty_line_witness :
  ∃ w1 w2,
    ClickMain.initialize_database "apps_sizes.db" false blank_world
    = (w1, Ok ())
    ∧ ClickMain.summary "apps_sizes.db" w1 = (w2, Ok ())
    ∧ stdout w2 = [PrintedText ""].
Proof.
  destruct (summary_of_new_table_prints_empty_line blank_world
              "apps_sizes.db" eq_refl eq_refl)
    as (w1 & w2 & H1 & H2 & H3 & _).
  exists w1, w2. split; [exact H1|]. split; [exact H2 | exact H3].
Defined.

(** X5.  When the table holds a cell that is not text (NULL or a number,
    which only another tool can have stored), [summary] raises the
    [TypeError] of [", ".join(row)]: nothing is printed, the files are as
    before and the connection has been closed. *)
Theorem summary_of_non_text_cell_raises
    (w : World) (path : string) (t : Table) :
  is_private path = false →
  files w !! path = Some t →
  forallb (forallb is_text) (rows t) = false →
  ClickMain.summary path w
  = (set_conns (conns w ++ [closed_conn path (Some t)]) w, Raise TypeError).
Proof.
  intros Hp Hf Hcells. unfold ClickMain.summary, bind.
  rewrite (summary_rows_spec w path Hp t Hf). unfold lift.
  destruct (join_rows (rows t)) as [lines|e] eqn:Hj.
  - assert (forallb (forallb is_text) (rows t) = true) as Hall
      by (apply join_rows_ok_iff; by exists lines).
    congruence.
  - by rewrite (join_rows_raises (rows t) e Hj).
Qed.

Lemma summary_of_non_text_cell_raises_witness :
  (ClickMain.summary "apps_sizes.db" null_cell_world).2 = Raise TypeError
  ∧ stdout (ClickMain.summary "apps_sizes.db" null_cell_world).1 = [].
Proof.
  rewrite (summary_of_non_text_cell_raises null_cell_world "apps_sizes.db"
             (mkTable updates_columns
                [stored_row (mkDate 2026 11 3) "A" "10";
                 [SqlText "B"; SqlNull; SqlText "2026-11-04"]])
             eq_refl eq_refl eq_refl).
  split; reflexivity.
Defined.

(** X6.  What the script stores, it can print: after [init-db] and any
    sequence of [update] invocations, [summary] succeeds and prints one
    string, with one line "name, size, YYYY-MM-DD" per invocation, in
    order. *)
Theorem summary_prints_one_line_per_update
    (w : World) (path : string) (reqs : list (Date * string * string)) :
  is_private path = false →
  files w !! path = None →
  ∃ w1 w2 w3,
    ClickMain.initialize_database path false w = (w1, Ok ())
    ∧ ClickMain.update_session path reqs w1 = (w2, Ok ())
    ∧ ClickMain.summary path w2 = (w3, Ok ())
    ∧ stdout w3
      = stdout w2
        ++ [PrintedText (String.concat newline (printed_line <$> reqs))].
Proof.
  intros Hp Hf.
  destruct (update_session_spec path reqs Hp
              (mkWorld (<[path := mkTable updates_columns []]> (files w))
                 (conns w
                  ++ [closed_conn path (Some (mkTable updates_columns []))])
                 (today w) (stdout w))
              (mkTable updates_columns []))
    as (w2 & Hrun & Hfiles).
  { cbn [files]. apply lookup_insert_eq. }
  { reflexivity. }
  eexists. exists w2. eexists.
  split; [exact (initialize_absent_spec w path Hp Hf)|].
  split; [exact Hrun|]. split.
  - exact (summary_spec w2 path Hp _ _ Hfiles (join_stored_rows reqs)).
  - done.
Qed.

Lemma summary_prints_one_line_per_update_witness :
  ∃ w1 w2 w3,
    ClickMain.initialize_database "apps_sizes.db" false blank_world
    = (w1, Ok ())
    ∧ ClickMain.update_session "apps_sizes.db"
        [(mkDate 2026 11 3, "A", "10"); (nov4, "B", "5")] w1 = (w2, Ok ())
    ∧ ClickMain.summary "apps_sizes.db" w2 = (w3, Ok ())
    ∧ stdout w3
      = stdout w2
        ++ [PrintedText
              ("A, 10, 2026-11-03" +:+ newline +:+ "B, 5, 2026-11-04")].
Proof.
  exact (summary_prints_one_line_per_update blank_world "apps_sizes.db"
           [(mkDate 2026 11 3, "A", "10"); (nov4, "B", "5")]
           eq_refl eq_refl).
Defined.

(** ** The context manager *)

(** X7.  [get_db_conn] closes its connection on every exit of the [with]
    block.  Whatever the block does with the handle, as long as the handle
    is still in the heap when the block ends, the call ends with the
    block's own outcome, value or exception, and with the connection
    closed; the files and the output are as the block left them. *)
Theorem get_db_conn_closes_on_every_exit
    {A : Type} (db_name : string) (body : Handle → Py A) (w : World) :
  let h := length (conns w) in
  let after_body := body h (connect db_name w).1 in
  h < length (conns after_body.1) →
  ∃ w' c,
    ClickMain.get_db_conn db_name body w = (w', after_body.2)
    ∧ conns w' !! h = Some c
    ∧ closed c = true
    ∧ files w' = files after_body.1
    ∧ stdout w' = stdout after_body.1.
Proof.
  intros h after_body Hlt.
  unfold ClickMain.get_db_conn, bind, try_finally, close.
  cbn [connect]. fold h. subst after_body. cbn [connect fst] in *.
  destruct (body h _) as [w1 r]. cbn [fst snd] in *.
  destruct (lookup_lt_is_Some_2 (conns w1) h Hlt) as [c Hc].
  unfold Handle in *. subst h. rewrite Hc. eexists. eexists. split; [reflexivity|].
  unfold set_conn. cbn [conns set_conns files stdout].
  split; [by apply list_lookup_insert_eq | done].
Qed.

Lemma get_db_conn_closes_on_every_exit_witness :
  ∃ w' c,
    ClickMain.get_db_conn "apps_sizes.db" (λ conn, execute conn SelectAll)
      blank_world
    = (w', Raise (OperationalError NoSuchTable))
    ∧ conns w' !! 0 = Some c
    ∧ closed c = true.
Proof.
  destruct (get_db_conn_closes_on_every_exit "apps_sizes.db"
              (λ conn, execute conn SelectAll) blank_world)
    as (w' & c & H1 & H2 & H3 & _).
  { vm_compute. lia. }
  exists w', c. split; [exact H1|]. split; [exact H2 | exact H3].
Defined.

(** ** click_main.py: [initialize_database] *)


(** X9.  A forced reset discards the history: on an existing table of any
    contents, [init-db --force] followed by any sequence of [update]
    invocations leaves exactly the rows of those invocations, in order,
    and none of the earlier rows. *)
Theorem force_reset_discards_history
    (w : World) (path : string) (t : Table)
    (reqs : list (Date * string * string)) :
  is_private path = false →
  files w !! path = Some t →
  ∃ w1 w2 w3,
    ClickMain.initialize_database path true w = (w1, Ok ())
    ∧ ClickMain.update_session path reqs w1 = (w2, Ok ())
    ∧ ClickMain.summary_rows path w2 = (w3, Ok (stored_rows reqs)).
Proof.
  intros Hp Hf.
  destruct (update_session_spec path reqs Hp
              (mkWorld (<[path := mkTable updates_columns []]> (files w))
                 (conns w
                  ++ [closed_conn path (Some (mkTable updates_columns []))])
                 (today w) (stdout w))
              (mkTable updates_columns []))
    as (w2 & Hrun & Hfiles).
  { cbn [files]. apply lookup_insert_eq. }
  { reflexivity. }
  eexists. exists w2. eexists.
  split; [exact (initialize_force_spec w path Hp t Hf)|].
  split; [exact Hrun|].
  by rewrite (summary_rows_spec w2 path Hp _ Hfiles).
Qed.

Lemma force_reset_discards_history_witness :
  ∃ w1 w2 w3,
    ClickMain.initialize_database "apps_sizes.db" true sample_world
    = (w1, Ok ())
    ∧ ClickMain.update_session "apps_sizes.db" [(nov4, "B", "5")] w1
      = (w2, Ok ())
    ∧ ClickMain.summary_rows "apps_sizes.db" w2
      = (w3, Ok [[SqlText "B"; SqlText "5"; SqlText "2026-11-04"]]).
Proof.
  exact (force_reset_discards_history sample_world "apps_sizes.db"
           sample_table [(nov4, "B", "5")] eq_refl eq_refl).
Defined.

(** ** The two scripts side by side *)

(** X10.  For the same name, size and day the two scripts store the same
    row: the date that click binds as a [datetime.date] reaches the table
    as the same text as the [str(date)] that argparse binds.  The last row
    click fetches after [update] is the tuple that argparse's [main]
    prints. *)
Theorem both_scripts_store_the_same_row
    (w : World) (path name size : string) (t : Table) (flag : bool) :
  is_private path = false →
  files w !! path = Some t →
  length (columns t) = 3 →
  ∃ w1 w2 w3 row,
    ClickMain.update path name size w = (w1, Ok ())
    ∧ ClickMain.summary_rows path w1 = (w2, Ok (rows t ++ [row]))
    ∧ ArgparseMain.main (ArgparseMain.mkNamespace [name; size] flag) w
      = (w3, Ok ())
    ∧ stdout w3 = stdout w ++ [PrintedFetched (Some row)].
Proof.
  intros Hp Hf Hc. eexists. eexists. eexists.
  exists (stored_row (today w) name size).
  split; [exact (update_spec w path Hp name size t Hf Hc)|].
  split.
  - rewrite (summary_rows_spec _ path Hp
               (mkTable (columns t)
                  (rows t ++ [stored_row (today w) name size])));
      [reflexivity|].
    cbn [files]. apply lookup_insert_eq.
  - split; [apply main_two_arguments_spec | done].
Qed.

Lemma both_scripts_store_the_same_row_witness :
  ∃ w1 w2 w3 row,
    ClickMain.update "apps_sizes.db" "B" "5" sample_world = (w1, Ok ())
    ∧ ClickMain.summary_rows "apps_sizes.db" w1
      = (w2, Ok (rows sample_table ++ [row]))
    ∧ ArgparseMain.main (ArgparseMain.mkNamespace ["B"; "5"] false)
        sample_world
      = (w3, Ok ())
    ∧ stdout w3 = [PrintedFetched (Some row)].
Proof.
  exact (both_scripts_store_the_same_row sample_world "apps_sizes.db" "B"
           "5" sample_table false eq_refl eq_refl eq_refl).
Defined.


(** ** The date column *)

Lemma string_app_inj (a a' b b' : string) :
  String.length a = String.length a' →
  a +:+ b = a' +:+ b' →
  a = a' ∧ b = b'.
Proof.
  revert a'. induction a as [|x a IH]; intros [|x' a'] Hlen Heq;
    try discriminate Hlen.
  - by split.
  - cbn in Heq. injection Heq as -> Heq. injection Hlen as Hlen.
    destruct (IH a' Hlen Heq) as [-> ->]. by split.
Qed.

Lemma string_app_length (a b : string) :
  String.length (a +:+ b) = (String.length a + String.length b)%nat.
Proof.
  induction a as [|x a IH]; [reflexivity|].
  change (S (String.length (a +:+ b))
          = S (String.length a + String.length b)).
  by rewrite IH.
Qed.

Lemma zero_padded_length (width n : nat) :
  String.length (zero_padded width n) = width.
Proof.
  revert n. induction width as [|width IH]; intros n; [done|].
  cbn [zero_padded]. rewrite string_app_length, IH. cbn. lia.
Qed.

Lemma digit_inj (n m : nat) : digit n = digit m → n mod 10 = m mod 10.
Proof.
  unfold digit. intros Heq.
  apply (f_equal nat_of_ascii) in Heq.
  assert (n mod 10 < 10)%nat by (apply Nat.mod_upper_bound; lia).
  assert (m mod 10 < 10)%nat by (apply Nat.mod_upper_bound; lia).
  rewrite !nat_ascii_embedding in Heq by lia. lia.
Qed.

Lemma zero_padded_inj (width n m : nat) :
  zero_padded width n = zero_padded width m →
  n mod 10 ^ width = m mod 10 ^ width.
Proof.
  revert n m. induction width as [|width IH]; intros n m Heq.
  - change (10 ^ 0)%nat with 1%nat. by rewrite !Nat.mod_1_r.
  - cbn [zero_padded] in Heq.
    apply string_app_inj in Heq as [Hhigh Hlow];
      [|by rewrite !zero_padded_length].
    injection Hlow as Hlow. apply digit_inj in Hlow. apply IH in Hhigh.
    rewrite Nat.pow_succ_r', !Nat.Div0.mod_mul_r. lia.
Qed.

(** X12.  No date drift in the date column: the text stored for a date
    always has ten characters, and two dates of the range of
    [datetime.date] that are stored as the same text are the same date. *)
Theorem isoformat_is_injective (d1 d2 : Date) :
  date_in_range d1 →
  date_in_range d2 →
  String.length (isoformat d1) = 10
  ∧ (isoformat d1 = isoformat d2 → d1 = d2).
Proof.
  intros (Hy1 & Hm1 & Hd1) (Hy2 & Hm2 & Hd2). split.
  - unfold isoformat.
    rewrite !string_app_length, !zero_padded_length. reflexivity.
  - unfold isoformat. intros Heq.
    apply string_app_inj in Heq as [Hy Heq];
      [|by rewrite !zero_padded_length].
    apply (string_app_inj "-" "-") in Heq as [_ Heq]; [|done].
    apply string_app_inj in Heq as [Hm Heq];
      [|by rewrite !zero_padded_length].
    apply (string_app_inj "-" "-") in Heq as [_ Hd]; [|done].
    apply zero_padded_inj in Hy, Hm, Hd.
    assert (10 ^ 2 = 100)%nat as H100 by reflexivity.
    rewrite !Nat.mod_small in Hy by lia.
    rewrite H100 in Hm, Hd.
    rewrite !Nat.mod_small in Hm by lia.
    rewrite !Nat.mod_small in Hd by lia.
    destruct d1, d2; cbn in *; congruence.
Qed.

Lemma isoformat_is_injective_witness :
  String.length (isoformat nov4) = 10
  ∧ (isoformat nov4 = isoformat (mkDate 2026 11 4) → nov4 = mkDate 2026 11 4).
Proof.
  apply (isoformat_is_injective nov4 (mkDate 2026 11 4));
    unfold date_in_range; cbn [year month day nov4];
    (repeat split; try lia; apply Nat.ltb_lt; vm_compute; reflexivity).
Defined.

(** ** A database made by one script, used by the other *)

Lemma argparse_initialize_absent (w : World) (path : string) :
  is_private path = false →
  files w !! path = None →
  ArgparseMain.initialize_database path w
  = (mkWorld (<[path := mkTable updates_columns []]> (files w))
       (conns w ++ [closed_conn path (Some (mkTable updates_columns []))])
       (today w) (stdout w),
     Ok ()).
Proof.
  intros Hfile Hf. py_unfold.
  rewrite (connect_target_file _ Hfile). cbn.
  rewrite lookup_new_conn. cbn. rewrite Hf.
  repeat py_step. done.
Qed.

(** X13.  The table that [initialize_database] of the argparse script
    creates in a file is one the click script can use: on a file without
    the table, that call succeeds, a click [update] on the file then
    succeeds, and click's fetch returns exactly the one row. *)
Theorem argparse_database_serves_click
    (w : World) (path name size : string) :
  is_private path = false →
  files w !! path = None →
  ∃ w1 w2 w3,
    ArgparseMain.initialize_database path w = (w1, Ok ())
    ∧ ClickMain.update path name size w1 = (w2, Ok ())
    ∧ ClickMain.summary_rows path w2
      = (w3, Ok [stored_row (today w) name size]).
Proof.
  intros Hp Hf. eexists. eexists. eexists.
  split; [exact (argparse_initialize_absent w path Hp Hf)|].
  split.
  - apply (update_spec _ path Hp name size (mkTable updates_columns []));
      [cbn [files]; apply lookup_insert_eq | reflexivity].
  - rewrite (summary_rows_spec _ path Hp
               (mkTable updates_columns [stored_row (today w) name size]));
      [reflexivity|].
    cbn [files]. apply lookup_insert_eq.
Qed.

Lemma argparse_database_serves_click_witness :
  ∃ w1 w2 w3,
    ArgparseMain.initialize_database "apps_sizes.db" blank_world
    = (w1, Ok ())
    ∧ ClickMain.update "apps_sizes.db" "A" "10" w1 = (w2, Ok ())
    ∧ ClickMain.summary_rows "apps_sizes.db" w2
      = (w3, Ok [[SqlText "A"; SqlText "10"; SqlText "2026-11-04"]]).
Proof.
  exact (argparse_database_serves_click blank_world "apps_sizes.db" "A" "10"
           eq_refl eq_refl).
Defined.
